(** * Raw-to-physical unit conversion of biosignalsnotebooks

    Shallow embedding of [biosignalsnotebooks/conversion.py]: the functions
    [raw_to_phy] and [generate_time].

    Modelling choices:
    - numeric values (NumPy float64 arrays) are modelled over the real
      numbers [R]; the claims are algebraic and are stated for the exact
      arithmetic that the floating-point code approximates;
    - a NumPy array is a [list R], and an elementwise NumPy expression is a
      [map] over it;
    - raw samples are integer ADC codes ([list Z]), converted with [IZR]
      exactly as [numpy.array(raw_signal)] turns Python ints into numbers;
    - Python's [2 ** resolution] on an int is [powerRZ 2 resolution]
      (for a negative exponent Python also yields the real [2^r]);
    - a raised exception is [Raise msg]; a normal return is [Return v], and
      the Python value [None] is the [None] of the returned [option]. *)

From Stdlib Require Import Reals Lra Lia String List ZArith.
Import ListNotations.
Open Scope string_scope.
Open Scope R_scope.

(** ** Python values *)

(** Outcome of a Python call: an exception with its message, or a value. *)
Inductive outcome (A : Type) : Type :=
| Raise (exn : string)
| Return (v : A).

Arguments Raise {A} exn.
Arguments Return {A} v.

(** The Python numbers that can be passed as [resolution]: an [int] or a
    [float]; [isinstance(resolution, int)] holds exactly for [PyInt]. *)
Inductive pyobj : Type :=
| PyInt (z : Z)
| PyFloat (f : R).

(** [x in l] for a Python list of strings. *)
Definition in_list (x : string) (l : list string) : bool :=
  existsb (String.eqb x) l.

(** Python's substring test [needle in hay] on strings. *)
Fixpoint contains (needle hay : string) : bool :=
  (String.prefix needle hay ||
  match hay with
  | EmptyString => false
  | String _ rest => contains needle rest
  end)%bool.

(** [numpy.array(raw_signal)] on a list of Python ints. *)
Definition numpy_array (raw_signal : list Z) : list R := map IZR raw_signal.

(** Elementwise NumPy operation on two arrays (of equal length here). *)
Fixpoint map2 {A B C : Type} (f : A -> B -> C) (l1 : list A) (l2 : list B)
  : list C :=
  match l1, l2 with
  | x :: t1, y :: t2 => f x y :: map2 f t1 t2
  | _, _ => []
  end.

(** ** Error messages of [raw_to_phy] *)

Definition msg_resolution : string :=
  "The specified resolution needs to be an integer.".
Definition msg_device : string :=
  "The output specified unit does not have a defined transfer function for the used device.".
Definition msg_unit : string :=
  "The selected output unit is invalid for the sensor under analysis.".
Definition msg_sensor : string :=
  "The specified sensor is not valid or for now is not available for unit conversion.".
(** Python's error for arithmetic on [None] ([numpy.array(None) / 1000]). *)
Definition msg_type_error : string := "TypeError".
(** Python's error when the call stack is exhausted. *)
Definition msg_recursion : string := "RecursionError".

(** ** Device lists of [raw_to_phy] *)

Definition plux_devices : list string :=
  ["bioplux"; "bioplux_exp"; "biosignalsplux"; "rachimeter"; "channeller";
   "swifter"; "ddme_openbanplux"].
Definition bitalino_devices : list string :=
  ["bitalino"; "bitalino_rev"; "bitalino_riot"].
Definition spo2_sensors : list string := ["SpO2.ARM"; "SpO2.HEAD"; "SpO2.FING"].
Definition spo2_devices : list string := ["channeller"; "biosignalsplux"; "swifter"].

(** Python result of a derived-unit branch, [numpy.array(prev) <op>]:
    an exception of the recursive call propagates, [None] is a TypeError. *)
Definition derive (prev : outcome (option (list R))) (f : R -> R)
  : outcome (option (list R)) :=
  match prev with
  | Raise e => Raise e
  | Return None => Raise msg_type_error
  | Return (Some xs) => Return (Some (map f xs))
  end.

(** ** [raw_to_phy]

    One activation of the Python body.  [rec o] is the recursive call
    [raw_to_phy(sensor, device, list(raw_signal), resolution, option=o)];
    [opt] is the parameter [option] of the source. *)
Definition raw_to_phy_body (rec : string -> outcome (option (list R)))
    (sensor device : string) (raw_signal : list Z) (resolution : pyobj)
    (opt : string) : outcome (option (list R)) :=
  let raw := numpy_array raw_signal in
  match resolution with
  | PyFloat _ => Raise msg_resolution
  | PyInt res =>
    let p := powerRZ 2 res in
    if String.eqb sensor "TEMP" then
      let vcc := 3.0 in
      let available_dev_1 := plux_devices in
      let available_dev_2 := bitalino_devices in
      if String.eqb opt "Ohm" then
        if in_list device available_dev_1
        then Return (Some (map (fun x => (1e4 * x) / (p - x)) raw))
        else Raise msg_device
      else if String.eqb opt "K" then
        let a_0 := 1.12764514e-3 in
        let a_1 := 2.34282709e-4 in
        let a_2 := 8.77303013e-8 in
        match rec "Ohm" with
        | Raise e => Raise e
        | Return None => Raise msg_type_error
        | Return (Some r1) =>
          match rec "Ohm" with
          | Raise e => Raise e
          | Return None => Raise msg_type_error
          | Return (Some r2) =>
            Return (Some (map2 (fun x y => 1 / (a_0 + a_1 * ln x + a_2 * (ln y) ^ 3))
                            r1 r2))
          end
        end
      else if String.eqb opt "C" then
        if in_list device available_dev_1 then
          derive (rec "K") (fun x => x - 273.15)
        else if in_list device available_dev_2 then
          Return (Some (map (fun x => ((x / p) * vcc - 0.5) * 100) raw))
        else Raise msg_device
      else Raise msg_unit
    else if String.eqb sensor "EMG" then
      let available_dev_1 := plux_devices in
      let available_dev_2 := ["bitalino"] in
      let available_dev_3 := ["bitalino_rev"; "bitalino_riot"] in
      if String.eqb opt "mV" then
        let vcc := 3.0 in
        match (if in_list device available_dev_1 then Some (0.5, 1)
               else if in_list device available_dev_2 then Some (0.5, 1.008)
               else if in_list device available_dev_3 then Some (0.5, 1.009)
               else None) with
        | None => Raise msg_device
        | Some (offset, gain) =>
          Return (Some (map (fun x => (x * vcc / p - vcc * offset) / gain) raw))
        end
      else if String.eqb opt "V" then
        derive (rec "mV") (fun x => x / 1000)
      else Return None
    else if String.eqb sensor "ECG" then
      let available_dev_1 := plux_devices in
      let available_dev_2 := bitalino_devices in
      if String.eqb opt "mV" then
        let vcc := 3.0 in
        match (if in_list device available_dev_1 then Some (0.5, 1.019)
               else if in_list device available_dev_2 then Some (0.5, 1.1)
               else None) with
        | None => Raise msg_device
        | Some (offset, gain) =>
          Return (Some (map (fun x => (x * vcc / p - vcc * offset) / gain) raw))
        end
      else if String.eqb opt "V" then
        derive (rec "mV") (fun x => x / 1000)
      else Return None
    else if String.eqb sensor "BVP" then
      let available_dev_1 := plux_devices in
      if String.eqb opt "uA" then
        let vcc := 3.0 in
        if in_list device available_dev_1 then
          let offset := 0 in
          let gain := 0.190060606 in
          Return (Some (map (fun x => (x * vcc / p - vcc * offset) / gain) raw))
        else Raise msg_device
      else if String.eqb opt "A" then
        derive (rec "uA") (fun x => x * 1e-6)
      else Return None
    else if in_list sensor spo2_sensors then
      let available_dev_1 := spo2_devices in
      let scale_factor :=
        if (contains "ARM" sensor || contains "FING" sensor)%bool then Some 1.2
        else if contains "HEAD" sensor then Some 0.15
        else None in
      if String.eqb opt "uA" then
        if in_list device available_dev_1 then
          match scale_factor with
          | Some s => Return (Some (map (fun x => s * (x / p)) raw))
          | None => Raise msg_type_error
          end
        else Raise msg_device
      else if String.eqb opt "A" then
        derive (rec "uA") (fun x => x * 1e-6)
      else Return None
    else Raise msg_sensor
  end.

(** The Python recursion, with the call stack bounded by [fuel] frames. *)
Fixpoint raw_to_phy_rec (fuel : nat) (sensor device : string)
    (raw_signal : list Z) (resolution : pyobj) (opt : string)
  : outcome (option (list R)) :=
  match fuel with
  | O => Raise msg_recursion
  | S fuel' =>
    raw_to_phy_body (raw_to_phy_rec fuel' sensor device raw_signal resolution)
      sensor device raw_signal resolution opt
  end.

(** The deepest chain of calls is "C" -> "K" -> "Ohm": three frames
    ([raw_to_phy_rec_enough] below shows more frames change nothing). *)
Definition raw_to_phy (sensor device : string) (raw_signal : list Z)
    (resolution : pyobj) (opt : string) : outcome (option (list R)) :=
  raw_to_phy_rec 3 sensor device raw_signal resolution opt.

(** ** [generate_time] *)

(** [numpy.linspace(start, stop, num)] (endpoint included): for [num > 1]
    the points [i * step + start] with [step = (stop - start) / (num - 1)],
    whose last one is overwritten by [stop]; for [num = 1] the single point
    [start]; nothing for [num = 0].  (NumPy computes [i / div * delta]
    instead of [i * step] when [step] is zero; over [R] both are [0].) *)
Definition linspace (start stop : R) (num : nat) : list R :=
  match num with
  | O => []
  | S O => [start]
  | S m =>
    let step := (stop - start) / INR m in
    map (fun i => INR i * step + start) (seq 0 m) ++ [stop]
  end.

(** [generate_time(signal, sample_rate)] with an integer sampling rate (as
    in the docstring); [nbr_of_samples / sample_rate] raises Python's
    ZeroDivisionError when the rate is 0. *)
Definition generate_time (signal : list R) (sample_rate : Z) : outcome (list R) :=
  let nbr_of_samples := length signal in
  if Z.eqb sample_rate 0 then Raise "ZeroDivisionError"
  else
    let end_of_time := INR nbr_of_samples / IZR sample_rate in
    Return (linspace 0 end_of_time nbr_of_samples).

(** ** Predicates used in the statements *)

(** Elementwise closeness of two arrays, within [tol]. *)
Definition approx (tol : R) (ys es : list R) : Prop :=
  Forall2 (fun y e => Rabs (y - e) < tol) ys es.

(** ** Small evaluations *)

Example raw_to_phy_ecg_shape :
  raw_to_phy "ECG" "bioplux" [2048%Z] (PyInt 12) "mV"
  = Return (Some [(IZR 2048 * 3.0 / powerRZ 2 12 - 3.0 * 0.5) / 1.019]).
Proof. reflexivity. Qed.

Example raw_to_phy_temp_c_bitalino :
  raw_to_phy "TEMP" "bitalino" [1024%Z] (PyInt 12) "C"
  = Return (Some [((IZR 1024 / powerRZ 2 12) * 3.0 - 0.5) * 100]).
Proof. reflexivity. Qed.

Example raw_to_phy_temp_k_bitalino :
  raw_to_phy "TEMP" "bitalino" [1024%Z] (PyInt 12) "K" = Raise msg_device.
Proof. reflexivity. Qed.

Example generate_time_small :
  generate_time [0; 0; 0] 3%Z = Return [INR 0 * ((INR 3 / IZR 3 - 0) / INR 2) + 0;
                                        INR 1 * ((INR 3 / IZR 3 - 0) / INR 2) + 0;
                                        INR 3 / IZR 3].
Proof. reflexivity. Qed.

(** ** The recursion depth is enough *)

Section Frames.
Variables (sensor device : string) (raw_signal : list Z) (resolution : pyobj).

Local Abbreviation body rec := (raw_to_phy_body rec sensor device raw_signal resolution).
Local Abbreviation frames n := (raw_to_phy_rec n sensor device raw_signal resolution).

(** The primitive units make no recursive call. *)
Lemma body_primitive (rec1 rec2 : string -> outcome (option (list R))) (o : string) :
  In o ["Ohm"; "mV"; "uA"] -> body rec1 o = body rec2 o.
Proof.
  intros Ho; unfold raw_to_phy_body.
  destruct resolution; [|reflexivity].
  destruct Ho as [<-|[<-|[<-|[]]]]; cbn;
    repeat match goal with |- context [if ?b then _ else _] => destruct b end;
    reflexivity.
Qed.

(** "K" calls only "Ohm". *)
Lemma body_kelvin (rec1 rec2 : string -> outcome (option (list R))) :
  rec1 "Ohm" = rec2 "Ohm" -> body rec1 "K" = body rec2 "K".
Proof.
  intros H; unfold raw_to_phy_body; rewrite H; reflexivity.
Qed.

(** Every recursive call is at "Ohm", "K", "mV" or "uA". *)
Lemma body_ext (rec1 rec2 : string -> outcome (option (list R))) (o : string) :
  rec1 "Ohm" = rec2 "Ohm" -> rec1 "K" = rec2 "K" ->
  rec1 "mV" = rec2 "mV" -> rec1 "uA" = rec2 "uA" ->
  body rec1 o = body rec2 o.
Proof.
  intros H1 H2 H3 H4; unfold raw_to_phy_body; rewrite H1, H2, H3, H4; reflexivity.
Qed.

Lemma frames_primitive (n : nat) (o : string) :
  In o ["Ohm"; "mV"; "uA"] -> frames (S n) o = frames 1 o.
Proof. intros Ho; cbn [raw_to_phy_rec]; apply body_primitive; exact Ho. Qed.

Lemma frames_kelvin (n : nat) : frames (S (S n)) "K" = frames 2 "K".
Proof.
  cbn [raw_to_phy_rec]; apply body_kelvin.
  apply (frames_primitive n "Ohm"); cbn; tauto.
Qed.

(** Three frames compute the same result as any deeper call stack. *)
Lemma raw_to_phy_rec_enough (n : nat) (o : string) :
  (3 <= n)%nat -> frames n o = raw_to_phy sensor device raw_signal resolution o.
Proof.
  intros Hn; unfold raw_to_phy.
  destruct n as [|[|[|m]]]; try lia.
  cbn [raw_to_phy_rec]; apply body_ext.
  - apply (frames_primitive (S m) "Ohm"); cbn; tauto.
  - apply frames_kelvin.
  - apply (frames_primitive (S m) "mV"); cbn; tauto.
  - apply (frames_primitive (S m) "uA"); cbn; tauto.
Qed.

End Frames.

(** ** Evaluation helpers *)

Lemma map2_diag {A B : Type} (f : A -> A -> B) (l : list A) :
  map2 f l l = map (fun x => f x x) l.
Proof. induction l as [|x l IH]; cbn; [reflexivity | now rewrite IH]. Qed.

Lemma in_list_In (x : string) (l : list string) : in_list x l = true <-> In x l.
Proof.
  unfold in_list; rewrite existsb_exists; split.
  - intros [y [Hy Hxy]]; apply String.eqb_eq in Hxy; subst; exact Hy.
  - intros Hx; exists x; split; [exact Hx | apply String.eqb_refl].
Qed.

Ltac string_neq :=
  match goal with
  | H : ?o <> ?lit |- context [String.eqb ?o ?lit] =>
    rewrite (proj2 (String.eqb_neq o lit) H)
  end.

(** An integer resolution never triggers the resolution error, at any
    depth of the recursion. *)
Lemma raw_to_phy_rec_int_passes (n : nat) (sensor device : string)
    (raw_signal : list Z) (z : Z) (o : string) :
  raw_to_phy_rec n sensor device raw_signal (PyInt z) o <> Raise msg_resolution.
Proof.
  revert o; induction n as [|n IH]; intros o; cbn [raw_to_phy_rec].
  - unfold msg_recursion, msg_resolution; discriminate.
  - unfold raw_to_phy_body.
    repeat match goal with
           | |- context [if ?b then _ else _] => destruct b
           | |- context [raw_to_phy_rec n _ _ _ _ ?a] =>
             let E := fresh "E" in
             destruct (raw_to_phy_rec n _ _ _ _ a) as [? | [?|]] eqn:E;
             [pose proof (IH a) as IHa; rewrite E in IHa | |]
           end;
    cbn [derive];
    unfold msg_resolution, msg_device, msg_unit, msg_sensor, msg_type_error in *;
    congruence.
Qed.

(** One activation of [raw_to_phy], its recursive calls given two frames. *)
Lemma raw_to_phy_unfold (sensor device : string) (raw_signal : list Z)
    (resolution : pyobj) (o : string) :
  raw_to_phy sensor device raw_signal resolution o
  = raw_to_phy_body (raw_to_phy_rec 2 sensor device raw_signal resolution)
      sensor device raw_signal resolution o.
Proof. reflexivity. Qed.

Lemma rec2_primitive (sensor device : string) (raw_signal : list Z)
    (resolution : pyobj) (o : string) :
  In o ["Ohm"; "mV"; "uA"] ->
  raw_to_phy_rec 2 sensor device raw_signal resolution o
  = raw_to_phy sensor device raw_signal resolution o.
Proof.
  intros Ho; unfold raw_to_phy.
  rewrite (frames_primitive _ _ _ _ 1 o Ho), (frames_primitive _ _ _ _ 2 o Ho).
  reflexivity.
Qed.

Lemma rec2_kelvin (sensor device : string) (raw_signal : list Z) (resolution : pyobj) :
  raw_to_phy_rec 2 sensor device raw_signal resolution "K"
  = raw_to_phy sensor device raw_signal resolution "K".
Proof. unfold raw_to_phy; rewrite (frames_kelvin _ _ _ _ 1); reflexivity. Qed.

Ltac step_phy :=
  rewrite raw_to_phy_unfold; unfold raw_to_phy_body; cbn -[raw_to_phy_rec in_list].

(** V is derived from mV for EMG and ECG. *)
Lemma raw_to_phy_volt (sensor device : string) (raw_signal : list Z) (z : Z) :
  sensor = "EMG" \/ sensor = "ECG" ->
  raw_to_phy sensor device raw_signal (PyInt z) "V"
  = derive (raw_to_phy sensor device raw_signal (PyInt z) "mV") (fun x => x / 1000).
Proof.
  intros [-> | ->]; step_phy; rewrite rec2_primitive by (cbn; tauto); reflexivity.
Qed.

(** A is derived from uA for BVP and the SpO2 sensors. *)
Lemma raw_to_phy_ampere (sensor device : string) (raw_signal : list Z) (z : Z) :
  sensor = "BVP" \/ In sensor spo2_sensors ->
  raw_to_phy sensor device raw_signal (PyInt z) "A"
  = derive (raw_to_phy sensor device raw_signal (PyInt z) "uA") (fun x => x * 1e-6).
Proof.
  intros [-> | Hs]; [| destruct Hs as [<- | [<- | [<- | []]]]]; step_phy;
    rewrite rec2_primitive by (cbn; tauto); reflexivity.
Qed.

(** TEMP in Ohm on a PLUX device. *)
Lemma raw_to_phy_temp_ohm (device : string) (raw_signal : list Z) (z : Z) :
  in_list device plux_devices = true ->
  raw_to_phy "TEMP" device raw_signal (PyInt z) "Ohm"
  = Return (Some (map (fun x => (1e4 * x) / (powerRZ 2 z - x)) (numpy_array raw_signal))).
Proof. intros Hd; step_phy; rewrite Hd; reflexivity. Qed.

(** TEMP in K is computed from the Ohm output. *)
Lemma raw_to_phy_temp_kelvin (device : string) (raw_signal : list Z) (z : Z) :
  raw_to_phy "TEMP" device raw_signal (PyInt z) "K"
  = match raw_to_phy "TEMP" device raw_signal (PyInt z) "Ohm" with
    | Raise e => Raise e
    | Return None => Raise msg_type_error
    | Return (Some r) =>
      Return (Some (map (fun x => 1 / (1.12764514e-3 + 2.34282709e-4 * ln x
                                       + 8.77303013e-8 * (ln x) ^ 3)) r))
    end.
Proof.
  step_phy; rewrite rec2_primitive by (cbn; tauto).
  destruct (raw_to_phy "TEMP" device raw_signal (PyInt z) "Ohm") as [e | [r|]];
    try reflexivity.
  rewrite map2_diag; reflexivity.
Qed.

(** TEMP in C on a PLUX device is computed from the K output. *)
Lemma raw_to_phy_temp_celsius (device : string) (raw_signal : list Z) (z : Z) :
  in_list device plux_devices = true ->
  raw_to_phy "TEMP" device raw_signal (PyInt z) "C"
  = derive (raw_to_phy "TEMP" device raw_signal (PyInt z) "K") (fun x => x - 273.15).
Proof. intros Hd; step_phy; rewrite Hd, rec2_kelvin; reflexivity. Qed.

Lemma raw_to_phy_ecg_mv_plux (device : string) (raw_signal : list Z) (z : Z) :
  in_list device plux_devices = true ->
  raw_to_phy "ECG" device raw_signal (PyInt z) "mV"
  = Return (Some (map (fun x => (x * 3.0 / powerRZ 2 z - 3.0 * 0.5) / 1.019)
                    (numpy_array raw_signal))).
Proof. intros Hd; step_phy; rewrite Hd; reflexivity. Qed.

Lemma linear_transfer_strict (p offset gain a b : R) :
  0 < p -> 0 < gain -> a < b ->
  (a * 3.0 / p - 3.0 * offset) / gain < (b * 3.0 / p - 3.0 * offset) / gain.
Proof.
  intros Hp Hg Hab; unfold Rdiv.
  apply Rmult_lt_compat_r; [apply Rinv_0_lt_compat; exact Hg|].
  apply Rplus_lt_compat_r.
  apply Rmult_lt_compat_r; [apply Rinv_0_lt_compat; exact Hp | lra].
Qed.

Lemma powerRZ_two_IZR (z : Z) : (0 <= z)%Z -> powerRZ 2 z = IZR (2 ^ z).
Proof.
  intros Hz; rewrite <- (Z2Nat.id z Hz), <- pow_powerRZ, pow_IZR; reflexivity.
Qed.

(** ** [linspace] in closed form *)

Lemma linspace_closed (stop : R) (m : nat) :
  (1 <= m)%nat ->
  linspace 0 stop (S m) = map (fun i => INR i * (stop / INR m)) (seq 0 (S m)).
Proof.
  intros Hm; destruct m as [|k]; [lia|].
  assert (Hk : INR (S k) <> 0) by (apply not_0_INR; discriminate).
  change (linspace 0 stop (S (S k)))
    with (map (fun i => INR i * ((stop - 0) / INR (S k)) + 0) (seq 0 (S k)) ++ [stop])%list.
  rewrite (seq_S (S k) 0), map_app; f_equal.
  - apply map_ext; intros i; unfold Rdiv; ring.
  - cbn [map Nat.add]; f_equal; field; exact Hk.
Qed.

Lemma nth_map_seq (f : nat -> R) (n i : nat) :
  (i < n)%nat -> nth i (map f (seq 0 n)) 0 = f i.
Proof.
  intros Hi.
  rewrite (nth_indep _ 0 (f 0%nat)) by (rewrite length_map, length_seq; exact Hi).
  rewrite map_nth, seq_nth by exact Hi; reflexivity.
Qed.

Lemma Forall2_map_self {A B : Type} (P : A -> B -> Prop) (Q : A -> Prop)
    (f : A -> B) (l : list A) :
  Forall Q l -> (forall x, Q x -> P x (f x)) -> Forall2 P l (map f l).
Proof.
  intros HQ HP; induction HQ as [|x l Hx _ IH]; cbn; constructor; auto.
Qed.

(** The three ECG outputs of the concrete example. *)
Lemma ecg_bioplux_example_values :
  raw_to_phy "ECG" "bioplux" [0; 2048; 4095]%Z (PyInt 12) "mV"
  = Return (Some [(0 * 3.0 / 4096 - 3.0 * 0.5) / 1.019;
                  (2048 * 3.0 / 4096 - 3.0 * 0.5) / 1.019;
                  (4095 * 3.0 / 4096 - 3.0 * 0.5) / 1.019]).
Proof.
  rewrite raw_to_phy_ecg_mv_plux by reflexivity.
  assert (P : powerRZ 2 12 = 4096) by (simpl; lra).
  cbn [numpy_array map]; rewrite P; reflexivity.
Qed.

(** * Claims *)

(** C1 (code bug).  The spec requires every unit outside the sensor's
    unit set to raise an error.  TEMP does raise, but EMG and ECG with a
    unit other than mV/V, and BVP and the SpO2 sensors with a unit other
    than uA/A, fall through all branches and return [None]. *)
Theorem raw_to_phy_unit_outside_set_returns_None (sensor device : string)
    (raw_signal : list Z) (z : Z) (o : string) :
  ((sensor = "EMG" \/ sensor = "ECG") /\ o <> "mV" /\ o <> "V") \/
  ((sensor = "BVP" \/ In sensor spo2_sensors) /\ o <> "uA" /\ o <> "A") ->
  raw_to_phy sensor device raw_signal (PyInt z) o = Return None.
Proof.
  intros [[Hs [H1 H2]] | [Hs [H1 H2]]].
  - destruct Hs as [-> | ->]; step_phy; do 2 string_neq; reflexivity.
  - destruct Hs as [-> | Hs]; [| destruct Hs as [<- | [<- | [<- | []]]]];
      step_phy; do 2 string_neq; reflexivity.
Qed.

Lemma raw_to_phy_unit_outside_set_returns_None_witness :
  raw_to_phy "EMG" "bioplux" [0%Z] (PyInt 12) "K" = Return None.
Proof.
  apply raw_to_phy_unit_outside_set_returns_None.
  left; split; [left; reflexivity | split; discriminate].
Defined.

(** C2.  For TEMP on a PLUX device, the Celsius output is the Kelvin
    output minus 273.15, elementwise, whenever both conversions succeed. *)
Theorem raw_to_phy_temp_celsius_kelvin (device : string) (raw_signal : list Z)
    (resolution : pyobj) (c k : list R) :
  in_list device plux_devices = true ->
  raw_to_phy "TEMP" device raw_signal resolution "C" = Return (Some c) ->
  raw_to_phy "TEMP" device raw_signal resolution "K" = Return (Some k) ->
  c = map (fun x => x - 273.15) k.
Proof.
  intros Hd Hc Hk; destruct resolution as [z | f]; [| discriminate Hc].
  rewrite raw_to_phy_temp_celsius, Hk in Hc by exact Hd.
  cbn [derive] in Hc; congruence.
Qed.

Lemma raw_to_phy_temp_celsius_kelvin_witness :
  exists c k,
    raw_to_phy "TEMP" "bioplux" [1000%Z] (PyInt 12) "C" = Return (Some c) /\
    raw_to_phy "TEMP" "bioplux" [1000%Z] (PyInt 12) "K" = Return (Some k) /\
    c = map (fun x => x - 273.15) k.
Proof.
  do 2 eexists; split; [reflexivity | split; [reflexivity |]].
  apply (raw_to_phy_temp_celsius_kelvin "bioplux" [1000%Z] (PyInt 12));
    reflexivity.
Defined.

(** C3.  Derived units are scalings of the primitive unit: V is mV / 1000
    for EMG and ECG, and A is uA * 1e-6 for BVP and the SpO2 sensors,
    whenever the primitive conversion succeeds. *)
Theorem raw_to_phy_scale_consistency (sensor device : string)
    (raw_signal : list Z) (resolution : pyobj) (m : list R) :
  ((sensor = "EMG" \/ sensor = "ECG") ->
   raw_to_phy sensor device raw_signal resolution "mV" = Return (Some m) ->
   raw_to_phy sensor device raw_signal resolution "V"
   = Return (Some (map (fun x => x / 1000) m))) /\
  ((sensor = "BVP" \/ In sensor spo2_sensors) ->
   raw_to_phy sensor device raw_signal resolution "uA" = Return (Some m) ->
   raw_to_phy sensor device raw_signal resolution "A"
   = Return (Some (map (fun x => x * 1e-6) m))).
Proof.
  destruct resolution as [z | f]; [| split; intros _ H; discriminate H].
  split; intros Hs Hm.
  - rewrite raw_to_phy_volt, Hm by exact Hs; reflexivity.
  - rewrite raw_to_phy_ampere, Hm by exact Hs; reflexivity.
Qed.

Lemma raw_to_phy_scale_consistency_witness :
  (exists m,
     raw_to_phy "ECG" "bioplux" [1%Z] (PyInt 12) "mV" = Return (Some m) /\
     raw_to_phy "ECG" "bioplux" [1%Z] (PyInt 12) "V"
     = Return (Some (map (fun x => x / 1000) m))) /\
  (exists m,
     raw_to_phy "SpO2.HEAD" "swifter" [1%Z] (PyInt 12) "uA" = Return (Some m) /\
     raw_to_phy "SpO2.HEAD" "swifter" [1%Z] (PyInt 12) "A"
     = Return (Some (map (fun x => x * 1e-6) m))).
Proof.
  split; eexists; (split; [reflexivity |]).
  - apply (proj1 (raw_to_phy_scale_consistency "ECG" "bioplux" [1%Z] (PyInt 12) _));
      [right; reflexivity | reflexivity].
  - apply (proj2 (raw_to_phy_scale_consistency "SpO2.HEAD" "swifter" [1%Z] (PyInt 12) _));
      [right; cbn; tauto | reflexivity].
Defined.

(** C4, counterexample.  On bioplux, [0; 2048; 4095] at resolution 12, the
    mV output is not within 0.001 of [-1.4720; 0.0015; 1.4746]: its middle
    sample is exactly 0. *)
Lemma raw_to_phy_ecg_example_mismatch :
  exists ys,
    raw_to_phy "ECG" "bioplux" [0; 2048; 4095]%Z (PyInt 12) "mV" = Return (Some ys) /\
    ~ approx (1 / 1000) ys [-1.4720; 0.0015; 1.4746].
Proof.
  eexists; split; [apply ecg_bioplux_example_values |].
  intros H; inversion H as [| ? ? ? ? _ H']; subst.
  inversion H' as [| ? ? ? ? H1 _]; subst.
  apply Rabs_def2 in H1; lra.
Qed.

(** C4, amended.  For ECG on a PLUX device in mV, every sample is
    [(raw * 3.0 / 2^r - 3.0 * 0.5) / 1.019]; on bioplux, [0; 2048; 4095] at
    resolution 12 the output is approximately [-1.4720; 0.0000; 1.4713]
    (within 5e-5), its middle sample being exactly 0. *)
Theorem raw_to_phy_ecg_mv_formula (device : string) (raw_signal : list Z) (z : Z) :
  in_list device plux_devices = true ->
  raw_to_phy "ECG" device raw_signal (PyInt z) "mV"
  = Return (Some (map (fun x => (x * 3.0 / powerRZ 2 z - 3.0 * 0.5) / 1.019)
                    (numpy_array raw_signal))) /\
  exists y0 y1 y2,
    raw_to_phy "ECG" "bioplux" [0; 2048; 4095]%Z (PyInt 12) "mV"
    = Return (Some [y0; y1; y2]) /\
    approx (5 / 100000) [y0; y1; y2] [-1.4720; 0; 1.4713] /\ y1 = 0.
Proof.
  intros Hd; split; [apply raw_to_phy_ecg_mv_plux; exact Hd |].
  do 3 eexists; split; [apply ecg_bioplux_example_values |].
  split; [| lra].
  repeat constructor; apply Rabs_def1; lra.
Qed.

Lemma raw_to_phy_ecg_mv_formula_witness :
  raw_to_phy "ECG" "bioplux" [4095%Z] (PyInt 12) "mV"
  = Return (Some (map (fun x => (x * 3.0 / powerRZ 2 12 - 3.0 * 0.5) / 1.019)
                    (numpy_array [4095%Z]))).
Proof. apply (raw_to_phy_ecg_mv_formula "bioplux" [4095%Z] 12); reflexivity. Defined.

(** C5.  For TEMP on a PLUX device, the Ohm output is
    [(1e4 * raw) / (2^r - raw)] and the Kelvin output is the inverse
    Steinhart-Hart approximation applied to the Ohm output. *)
Theorem raw_to_phy_temp_ohm_kelvin (device : string) (raw_signal : list Z) (z : Z) :
  in_list device plux_devices = true ->
  let ohm := map (fun x => (1e4 * x) / (powerRZ 2 z - x)) (numpy_array raw_signal) in
  raw_to_phy "TEMP" device raw_signal (PyInt z) "Ohm" = Return (Some ohm) /\
  raw_to_phy "TEMP" device raw_signal (PyInt z) "K"
  = Return (Some (map (fun r => 1 / (1.12764514e-3 + 2.34282709e-4 * ln r
                                     + 8.77303013e-8 * (ln r) ^ 3)) ohm)).
Proof.
  intros Hd ohm; split.
  - apply raw_to_phy_temp_ohm; exact Hd.
  - rewrite raw_to_phy_temp_kelvin, raw_to_phy_temp_ohm by exact Hd; reflexivity.
Qed.

Lemma raw_to_phy_temp_ohm_kelvin_witness :
  raw_to_phy "TEMP" "channeller" [2048%Z] (PyInt 12) "Ohm"
  = Return (Some (map (fun x => (1e4 * x) / (powerRZ 2 12 - x)) (numpy_array [2048%Z]))).
Proof. apply (raw_to_phy_temp_ohm_kelvin "channeller" [2048%Z] 12); reflexivity. Defined.

(** C8, counterexample.  Resolutions 0 and -1 are integers and are not
    rejected: ECG on bioplux returns an array for both. *)
Lemma raw_to_phy_nonpositive_resolution_accepted :
  (exists v, raw_to_phy "ECG" "bioplux" [0%Z] (PyInt 0) "mV" = Return v) /\
  (exists v, raw_to_phy "ECG" "bioplux" [0%Z] (PyInt (-1)) "mV" = Return v).
Proof. split; eexists; reflexivity. Qed.

(** C8, amended.  A resolution that is not a Python int (a float, even a
    whole one) is rejected with the resolution RuntimeError before any
    arithmetic; every int resolution, including 0 and negative ones, passes
    this check. *)
Theorem raw_to_phy_resolution_check (sensor device : string) (raw_signal : list Z)
    (o : string) :
  (forall f, raw_to_phy sensor device raw_signal (PyFloat f) o = Raise msg_resolution) /\
  (forall z, raw_to_phy sensor device raw_signal (PyInt z) o <> Raise msg_resolution).
Proof.
  split.
  - intros f; reflexivity.
  - intros z; apply raw_to_phy_rec_int_passes.
Qed.

(** C9.  For EMG and ECG the mV conversion is strictly increasing in the
    raw code, for a fixed supported device and positive resolution. *)
Theorem raw_to_phy_mv_strictly_increasing (sensor device : string) (z x y : Z)
    (fx fy : R) :
  sensor = "EMG" \/ sensor = "ECG" -> (0 < z)%Z -> (x < y)%Z ->
  raw_to_phy sensor device [x] (PyInt z) "mV" = Return (Some [fx]) ->
  raw_to_phy sensor device [y] (PyInt z) "mV" = Return (Some [fy]) ->
  fx < fy.
Proof.
  intros Hs Hz Hxy.
  assert (Hp : 0 < powerRZ 2 z) by (apply powerRZ_lt; lra).
  apply IZR_lt in Hxy.
  destruct Hs as [-> | ->]; rewrite !raw_to_phy_unfold; unfold raw_to_phy_body;
    cbn -[raw_to_phy_rec in_list];
    repeat match goal with |- context [if ?b then _ else _] => destruct b end;
    intros H1 H2; inversion H1; inversion H2; subst;
    apply linear_transfer_strict; lra.
Qed.

Lemma raw_to_phy_mv_strictly_increasing_witness :
  raw_to_phy "EMG" "bitalino" [1%Z] (PyInt 10) "mV"
  = Return (Some [(IZR 1 * 3.0 / powerRZ 2 10 - 3.0 * 0.5) / 1.008]) /\
  raw_to_phy "EMG" "bitalino" [2%Z] (PyInt 10) "mV"
  = Return (Some [(IZR 2 * 3.0 / powerRZ 2 10 - 3.0 * 0.5) / 1.008]) /\
  (IZR 1 * 3.0 / powerRZ 2 10 - 3.0 * 0.5) / 1.008
  < (IZR 2 * 3.0 / powerRZ 2 10 - 3.0 * 0.5) / 1.008.
Proof.
  split; [reflexivity | split; [reflexivity |]].
  apply (raw_to_phy_mv_strictly_increasing "EMG" "bitalino" 10 1 2);
    [left; reflexivity | lia | lia | reflexivity | reflexivity].
Defined.

(** C10.  For TEMP in Ohm on a PLUX device with a positive resolution [r]
    and every raw code in [0, 2^r), each denominator [2^r - raw] is
    positive and each output sample is non-negative; a raw code equal to
    [2^r] makes the denominator zero. *)
Theorem raw_to_phy_temp_ohm_well_defined (device : string) (raw_signal : list Z)
    (z : Z) :
  in_list device plux_devices = true -> (0 < z)%Z ->
  Forall (fun x => 0 <= x < 2 ^ z)%Z raw_signal ->
  (exists ys,
     raw_to_phy "TEMP" device raw_signal (PyInt z) "Ohm" = Return (Some ys) /\
     Forall2 (fun x y => 0 < powerRZ 2 z - IZR x /\
                         y = (1e4 * IZR x) / (powerRZ 2 z - IZR x) /\ 0 <= y)
       raw_signal ys) /\
  powerRZ 2 z - IZR (2 ^ z) = 0.
Proof.
  intros Hd Hz Hraw.
  rewrite (powerRZ_two_IZR z) by lia.
  split; [| lra].
  eexists; split; [rewrite raw_to_phy_temp_ohm by exact Hd; reflexivity |].
  unfold numpy_array; rewrite map_map, powerRZ_two_IZR by lia.
  apply (Forall2_map_self _ _ _ _ Hraw).
  intros x [Hx0 Hx1].
  assert (Hden : 0 < IZR (2 ^ z) - IZR x)
    by (rewrite <- minus_IZR; apply IZR_lt; lia).
  apply IZR_le in Hx0.
  split; [exact Hden | split; [reflexivity |]].
  unfold Rdiv; apply Rmult_le_pos; [lra | apply Rlt_le, Rinv_0_lt_compat; exact Hden].
Qed.

Lemma raw_to_phy_temp_ohm_well_defined_witness :
  (exists ys,
     raw_to_phy "TEMP" "bioplux" [0; 4095]%Z (PyInt 12) "Ohm" = Return (Some ys) /\
     Forall2 (fun x y => 0 < powerRZ 2 12 - IZR x /\
                         y = (1e4 * IZR x) / (powerRZ 2 12 - IZR x) /\ 0 <= y)
       [0; 4095]%Z ys) /\
  powerRZ 2 12 - IZR (2 ^ 12) = 0.
Proof.
  apply (raw_to_phy_temp_ohm_well_defined "bioplux" [0; 4095]%Z 12);
    [reflexivity | lia | repeat constructor; cbn; lia].
Defined.

(** C6, counterexample.  A one-sample signal gets the time axis [[0]]: its
    last element is 0, not [1 / sample_rate]. *)
Lemma generate_time_single_sample :
  generate_time [0] 1%Z = Return [0] /\ last [0] 0 <> INR (length [0]) / IZR 1.
Proof.
  split; [reflexivity |].
  cbn [last length INR]; lra.
Qed.

(** C6, amended.  For a positive rate, a one-sample signal gets the axis
    [[0]]; and a signal of [n >= 2] samples gets [n] timestamps, the first 0
    and the last [n / sample_rate], consecutive ones spaced by
    [(n / sample_rate) / (n - 1)], strictly increasing. *)
Theorem generate_time_axis (sample_rate : Z) :
  (0 < sample_rate)%Z ->
  (forall x, generate_time [x] sample_rate = Return [0]) /\
  forall signal, (2 <= length signal)%nat ->
  exists ts,
    generate_time signal sample_rate = Return ts /\
    length ts = length signal /\
    nth 0 ts 0 = 0 /\
    last ts 0 = INR (length signal) / IZR sample_rate /\
    (forall i, (S i < length signal)%nat ->
       nth (S i) ts 0 - nth i ts 0
       = (INR (length signal) / IZR sample_rate) / INR (length signal - 1)) /\
    (forall i j, (i < j < length signal)%nat -> nth i ts 0 < nth j ts 0).
Proof.
  intros Hsr; split.
  { intros x; unfold generate_time.
    rewrite (proj2 (Z.eqb_neq sample_rate 0)) by lia; reflexivity. }
  intros signal Hn; unfold generate_time.
  rewrite (proj2 (Z.eqb_neq sample_rate 0)) by lia.
  eexists; split; [reflexivity |].
  set (end_of_time := INR (length signal) / IZR sample_rate).
  assert (He : 0 < end_of_time).
  { unfold end_of_time, Rdiv; apply Rmult_lt_0_compat;
      [apply lt_0_INR; lia | apply Rinv_0_lt_compat, IZR_lt; exact Hsr]. }
  destruct (length signal) as [|m]; [lia |].
  assert (Hm : 0 < INR m) by (apply lt_0_INR; lia).
  replace (S m - 1)%nat with m by lia.
  rewrite linspace_closed by lia.
  set (c := end_of_time / INR m).
  assert (Hc : 0 < c) by (unfold c, Rdiv; apply Rmult_lt_0_compat;
                          [exact He | apply Rinv_0_lt_compat; exact Hm]).
  split; [rewrite length_map, length_seq; reflexivity |].
  split; [rewrite nth_map_seq by lia; cbn [INR]; ring |].
  split.
  { rewrite seq_S, map_app; cbn [map]; rewrite last_last.
    cbv beta; rewrite Nat.add_0_l; unfold c; clearbody end_of_time; field; lra. }
  split.
  { intros i Hi; rewrite !nth_map_seq by lia; rewrite S_INR; ring. }
  intros i j [Hij Hj]; rewrite !nth_map_seq by lia.
  apply Rmult_lt_compat_r; [exact Hc | apply lt_INR; exact Hij].
Qed.

(** The sample of the spec: 1000 samples at 1000 Hz give the axis from 0
    to 1 in steps of 1/999; one sample at 1000 Hz gives [[0]]. *)
Lemma generate_time_axis_witness :
  generate_time [7] 1000%Z = Return [0] /\
  exists ts,
    generate_time (repeat 0 1000) 1000%Z = Return ts /\
    length ts = 1000%nat /\
    nth 0 ts 0 = 0 /\
    last ts 0 = 1 /\
    (forall i, (S i < 1000)%nat -> nth (S i) ts 0 - nth i ts 0 = 1 / 999) /\
    (forall i j, (i < j < 1000)%nat -> nth i ts 0 < nth j ts 0).
Proof.
  destruct (generate_time_axis 1000%Z) as [H1 Haxis]; [lia |].
  split; [apply H1 |].
  destruct (Haxis (repeat 0 1000))
    as [ts [Hts [Hlen [H0 [Hlast [Hstep Hinc]]]]]];
    [rewrite repeat_length; lia |].
  rewrite repeat_length in Hlen, Hlast, Hstep, Hinc.
  assert (E : INR 1000 / IZR 1000 = 1).
  { rewrite INR_IZR_INZ; change (Z.of_nat 1000) with 1000%Z; field. }
  assert (E' : INR (1000 - 1) = 999).
  { rewrite INR_IZR_INZ; change (Z.of_nat (1000 - 1)) with 999%Z; reflexivity. }
  rewrite E in Hlast, Hstep; rewrite E' in Hstep.
  exists ts; repeat split; auto.
Defined.

(** C7, counterexample.  A negative sampling rate is not rejected: a time
    axis is returned. *)
Lemma generate_time_negative_rate_accepted :
  exists ts, generate_time [0; 0] (-1)%Z = Return ts /\ length ts = 2%nat.
Proof. eexists; split; reflexivity. Qed.

(** C7, amended.  [generate_time] does not validate the sampling rate: a
    zero rate raises Python's ZeroDivisionError from
    [nbr_of_samples / sample_rate], and a negative rate yields the
    [linspace] axis from 0 to the negative [n / sample_rate]. *)
Theorem generate_time_rate_unchecked (signal : list R) (sample_rate : Z) :
  (sample_rate = 0%Z -> generate_time signal sample_rate = Raise "ZeroDivisionError") /\
  ((sample_rate < 0)%Z ->
   generate_time signal sample_rate
   = Return (linspace 0 (INR (length signal) / IZR sample_rate) (length signal))).
Proof.
  split.
  - intros ->; reflexivity.
  - intros Hneg; unfold generate_time.
    rewrite (proj2 (Z.eqb_neq sample_rate 0)) by lia; reflexivity.
Qed.

Lemma generate_time_rate_unchecked_witness :
  generate_time [0; 0] 0%Z = Raise "ZeroDivisionError" /\
  generate_time [0; 0] (-2)%Z
  = Return (linspace 0 (INR (length [0; 0]) / IZR (-2)) (length [0; 0])).
Proof.
  split.
  - apply (proj1 (generate_time_rate_unchecked [0; 0] 0%Z)); reflexivity.
  - apply (proj2 (generate_time_rate_unchecked [0; 0] (-2)%Z)); lia.
Defined.

(** * Further properties of the conversion module *)

(** The outcome of a conversion, as a function of the raw samples, is
    either one exception whatever the samples, or [None] whatever the
    samples, or one scalar transfer function applied to each sample. *)
Definition elementwise (F : list Z -> outcome (option (list R))) : Prop :=
  (exists e, forall raw_signal, F raw_signal = Raise e) \/
  (forall raw_signal, F raw_signal = Return None) \/
  (exists f : R -> R, forall raw_signal,
     F raw_signal = Return (Some (map f (numpy_array raw_signal)))).

Lemma elementwise_derive (F : list Z -> outcome (option (list R))) (g : R -> R) :
  elementwise F -> elementwise (fun raw_signal => derive (F raw_signal) g).
Proof.
  intros [[e He] | [Hn | [f Hf]]].
  - left; exists e; intros raw_signal; rewrite He; reflexivity.
  - left; exists msg_type_error; intros raw_signal; rewrite Hn; reflexivity.
  - right; right; exists (fun x => g (f x)); intros raw_signal.
    rewrite Hf; cbn [derive]; rewrite map_map; reflexivity.
Qed.

Lemma elementwise_kelvin (F : list Z -> outcome (option (list R))) (h : R -> R -> R) :
  elementwise F ->
  elementwise (fun raw_signal =>
    match F raw_signal with
    | Raise e => Raise e
    | Return None => Raise msg_type_error
    | Return (Some r1) =>
      match F raw_signal with
      | Raise e => Raise e
      | Return None => Raise msg_type_error
      | Return (Some r2) => Return (Some (map2 h r1 r2))
      end
    end).
Proof.
  intros [[e He] | [Hn | [f Hf]]].
  - left; exists e; intros raw_signal; rewrite He; reflexivity.
  - left; exists msg_type_error; intros raw_signal; rewrite Hn; reflexivity.
  - right; right; exists (fun x => h (f x) (f x)); intros raw_signal.
    rewrite Hf, map2_diag, map_map; reflexivity.
Qed.

Lemma raw_to_phy_rec_elementwise (n : nat) (sensor device : string)
    (resolution : pyobj) (o : string) :
  elementwise (fun raw_signal => raw_to_phy_rec n sensor device raw_signal resolution o).
Proof.
  revert o; induction n as [|n IH]; intros o.
  - left; exists msg_recursion; reflexivity.
  - cbn [raw_to_phy_rec]; unfold raw_to_phy_body.
    destruct resolution as [z | f]; [| left; exists msg_resolution; reflexivity].
    cbv zeta.
    repeat match goal with |- context [if ?b then _ else _] => destruct b end;
      cbn iota;
      first
        [ left; eexists; intros ?; reflexivity
        | right; left; intros ?; reflexivity
        | right; right; eexists; intros ?; reflexivity
        | apply elementwise_derive; apply IH
        | apply elementwise_kelvin; apply IH ].
Qed.

Lemma raw_to_phy_elementwise (sensor device : string) (resolution : pyobj) (o : string) :
  elementwise (fun raw_signal => raw_to_phy sensor device raw_signal resolution o).
Proof. apply raw_to_phy_rec_elementwise. Qed.

Lemma not_in_list (x : string) (l : list string) : ~ In x l -> in_list x l = false.
Proof. intros Hx; destruct (in_list x l) eqn:E; [apply in_list_In in E; contradiction | reflexivity]. Qed.

(** Turns the boolean tests met in a case analysis into propositions. *)
Ltac reflect_tests :=
  repeat match goal with
         | H : String.eqb _ _ = true |- _ => apply String.eqb_eq in H
         | H : String.eqb _ _ = false |- _ => apply String.eqb_neq in H
         | H : in_list _ _ = true |- _ => apply in_list_In in H
         end.

(** Errors and [None] never depend on the sample values: a conversion
    that fails (or returns [None]) on one raw list does so, identically,
    on every raw list. *)
Theorem raw_to_phy_outcome_independent_of_samples (sensor device : string)
    (resolution : pyobj) (o : string) (raw1 raw2 : list Z) :
  (forall e, raw_to_phy sensor device raw1 resolution o = Raise e ->
             raw_to_phy sensor device raw2 resolution o = Raise e) /\
  (raw_to_phy sensor device raw1 resolution o = Return None ->
   raw_to_phy sensor device raw2 resolution o = Return None).
Proof.
  destruct (raw_to_phy_elementwise sensor device resolution o)
    as [[e' He] | [Hn | [f Hf]]];
    split; intros; rewrite ?He, ?Hn, ?Hf in *; congruence.
Qed.

Lemma raw_to_phy_outcome_independent_of_samples_witness :
  raw_to_phy "ECG" "unknown_device" [7%Z] (PyInt 12) "V" = Raise msg_device /\
  raw_to_phy "ECG" "unknown_device" [1; 2; 3]%Z (PyInt 12) "V" = Raise msg_device.
Proof.
  split; [reflexivity |].
  apply (proj1 (raw_to_phy_outcome_independent_of_samples
                  "ECG" "unknown_device" (PyInt 12) "V" [7%Z] [1; 2; 3]%Z));
    reflexivity.
Defined.

(** A successful conversion has one output sample per raw sample. *)
Theorem raw_to_phy_length (sensor device : string) (raw_signal : list Z)
    (resolution : pyobj) (o : string) (ys : list R) :
  raw_to_phy sensor device raw_signal resolution o = Return (Some ys) ->
  length ys = length raw_signal.
Proof.
  destruct (raw_to_phy_elementwise sensor device resolution o)
    as [[e He] | [Hn | [f Hf]]]; intros H;
    [rewrite He in H | rewrite Hn in H | rewrite Hf in H]; try discriminate H.
  injection H as <-; unfold numpy_array; rewrite !length_map; reflexivity.
Qed.

Lemma raw_to_phy_length_witness :
  exists ys, raw_to_phy "TEMP" "swifter" [10; 20; 30]%Z (PyInt 10) "C" = Return (Some ys) /\
             length ys = 3%nat.
Proof.
  eexists; split; [reflexivity |].
  apply (raw_to_phy_length "TEMP" "swifter" [10; 20; 30]%Z (PyInt 10) "C");
    reflexivity.
Defined.

(** Conversion works sample by sample: converting two raw lists one after
    the other gives the conversion of their concatenation. *)
Theorem raw_to_phy_app (sensor device : string) (raw1 raw2 : list Z)
    (resolution : pyobj) (o : string) (ys1 ys2 : list R) :
  raw_to_phy sensor device raw1 resolution o = Return (Some ys1) ->
  raw_to_phy sensor device raw2 resolution o = Return (Some ys2) ->
  raw_to_phy sensor device (raw1 ++ raw2)%list resolution o = Return (Some (ys1 ++ ys2)%list).
Proof.
  destruct (raw_to_phy_elementwise sensor device resolution o)
    as [[e He] | [Hn | [f Hf]]]; intros H1 H2;
    rewrite ?He, ?Hn, ?Hf in *; try discriminate H1.
  injection H1 as <-; injection H2 as <-.
  unfold numpy_array; rewrite !map_app; reflexivity.
Qed.

Lemma raw_to_phy_app_witness :
  exists ys1 ys2,
    raw_to_phy "BVP" "bioplux" [5%Z] (PyInt 12) "A" = Return (Some ys1) /\
    raw_to_phy "BVP" "bioplux" [9%Z] (PyInt 12) "A" = Return (Some ys2) /\
    raw_to_phy "BVP" "bioplux" [5; 9]%Z (PyInt 12) "A" = Return (Some (ys1 ++ ys2)%list).
Proof.
  do 2 eexists; split; [reflexivity | split; [reflexivity |]].
  apply (raw_to_phy_app "BVP" "bioplux" [5%Z] [9%Z] (PyInt 12) "A");
    reflexivity.
Defined.

Lemma derive_not_None (prev : outcome (option (list R))) (f : R -> R) :
  derive prev f <> Return None.
Proof. destruct prev as [e | [xs|]]; cbn; discriminate. Qed.

(** [None] is returned only on the fall-through paths: EMG or ECG with a
    unit other than mV and V, or BVP or an SpO2 sensor with a unit other
    than uA and A. *)
Theorem raw_to_phy_None_only_fall_through (sensor device : string)
    (raw_signal : list Z) (resolution : pyobj) (o : string) :
  raw_to_phy sensor device raw_signal resolution o = Return None ->
  ((sensor = "EMG" \/ sensor = "ECG") /\ o <> "mV" /\ o <> "V") \/
  ((sensor = "BVP" \/ In sensor spo2_sensors) /\ o <> "uA" /\ o <> "A").
Proof.
  destruct resolution as [z | f]; [| discriminate].
  step_phy.
  repeat match goal with |- context [if ?b then _ else _] => destruct b eqn:? end;
    intros H; try discriminate H;
    try (exfalso; exact (derive_not_None _ _ H));
    try (exfalso; revert H;
         destruct (raw_to_phy_rec 2 _ _ _ _ "Ohm") as [? | [?|]]; discriminate);
    reflect_tests; tauto.
Qed.

Lemma raw_to_phy_None_only_fall_through_witness :
  raw_to_phy "SpO2.FING" "swifter" [0%Z] (PyInt 12) "mV" = Return None /\
  ((("SpO2.FING" = "EMG" \/ "SpO2.FING" = "ECG") /\ "mV" <> "mV" /\ "mV" <> "V") \/
   (("SpO2.FING" = "BVP" \/ In "SpO2.FING" spo2_sensors) /\ "mV" <> "uA" /\ "mV" <> "A")).
Proof.
  split; [reflexivity |].
  apply (raw_to_phy_None_only_fall_through "SpO2.FING" "swifter" [0%Z] (PyInt 12) "mV").
  reflexivity.
Defined.

(** A device without a transfer function for the sensor is rejected with
    the device error, for the primitive unit and for the derived one:
    EMG/ECG (mV, V) outside the PLUX and BITalino devices, BVP (uA, A)
    outside the PLUX devices, SpO2 (uA, A) outside channeller,
    biosignalsplux and swifter. *)
Theorem raw_to_phy_unsupported_device (sensor device : string) (raw_signal : list Z)
    (z : Z) (o : string) :
  ((sensor = "EMG" \/ sensor = "ECG") /\ (o = "mV" \/ o = "V") /\
   ~ In device (plux_devices ++ bitalino_devices)) \/
  (sensor = "BVP" /\ (o = "uA" \/ o = "A") /\ ~ In device plux_devices) \/
  (In sensor spo2_sensors /\ (o = "uA" \/ o = "A") /\ ~ In device spo2_devices) ->
  raw_to_phy sensor device raw_signal (PyInt z) o = Raise msg_device.
Proof.
  intros [[Hs [Ho Hd]] | [[Hs [Ho Hd]] | [Hs [Ho Hd]]]].
  - assert (Hmv : raw_to_phy sensor device raw_signal (PyInt z) "mV" = Raise msg_device).
    { destruct Hs as [-> | ->]; step_phy;
        repeat match goal with |- context [if ?b then _ else _] => destruct b eqn:? end;
        try reflexivity; exfalso; apply Hd; reflect_tests;
        rewrite in_app_iff; cbn in *; intuition auto. }
    destruct Ho as [-> | ->]; [exact Hmv |].
    rewrite raw_to_phy_volt, Hmv by exact Hs; reflexivity.
  - assert (Hua : raw_to_phy sensor device raw_signal (PyInt z) "uA" = Raise msg_device).
    { subst sensor; step_phy; rewrite not_in_list by exact Hd; reflexivity. }
    destruct Ho as [-> | ->]; [exact Hua |].
    rewrite raw_to_phy_ampere, Hua by (left; exact Hs); reflexivity.
  - assert (Hua : raw_to_phy sensor device raw_signal (PyInt z) "uA" = Raise msg_device).
    { destruct Hs as [<- | [<- | [<- | []]]]; step_phy;
        rewrite (not_in_list device spo2_devices Hd); reflexivity. }
    destruct Ho as [-> | ->]; [exact Hua |].
    rewrite raw_to_phy_ampere, Hua by (right; exact Hs); reflexivity.
Qed.

Lemma raw_to_phy_unsupported_device_witness :
  raw_to_phy "SpO2.ARM" "bioplux" [0%Z] (PyInt 12) "A" = Raise msg_device.
Proof.
  apply raw_to_phy_unsupported_device; right; right.
  split; [cbn; tauto | split; [right; reflexivity | cbn; intuition discriminate]].
Defined.

(** For TEMP, a non-PLUX device is rejected in Ohm and in K (the K path
    fails inside its Ohm call), and a device that is neither PLUX nor
    BITalino is rejected in C. *)
Theorem raw_to_phy_temp_unsupported_device (device : string) (raw_signal : list Z)
    (z : Z) :
  (~ In device plux_devices ->
   raw_to_phy "TEMP" device raw_signal (PyInt z) "Ohm" = Raise msg_device /\
   raw_to_phy "TEMP" device raw_signal (PyInt z) "K" = Raise msg_device) /\
  (~ In device (plux_devices ++ bitalino_devices) ->
   raw_to_phy "TEMP" device raw_signal (PyInt z) "C" = Raise msg_device).
Proof.
  split.
  - intros Hd.
    assert (Hohm : raw_to_phy "TEMP" device raw_signal (PyInt z) "Ohm" = Raise msg_device)
      by (step_phy; rewrite not_in_list by exact Hd; reflexivity).
    split; [exact Hohm | rewrite raw_to_phy_temp_kelvin, Hohm; reflexivity].
  - intros Hd; rewrite in_app_iff in Hd.
    step_phy; rewrite !not_in_list by tauto; reflexivity.
Qed.

Lemma raw_to_phy_temp_unsupported_device_witness :
  raw_to_phy "TEMP" "bitalino" [0%Z] (PyInt 10) "Ohm" = Raise msg_device /\
  raw_to_phy "TEMP" "bitalino" [0%Z] (PyInt 10) "K" = Raise msg_device.
Proof.
  apply (proj1 (raw_to_phy_temp_unsupported_device "bitalino" [0%Z] 10)).
  cbn; intuition discriminate.
Defined.

(** The whole Celsius chain on a PLUX device: each sample goes through
    the Ohm transfer function, the inverse Steinhart-Hart approximation
    and the shift by -273.15. *)
Theorem raw_to_phy_temp_celsius_chain (device : string) (raw_signal : list Z) (z : Z) :
  In device plux_devices ->
  raw_to_phy "TEMP" device raw_signal (PyInt z) "C"
  = Return (Some (map (fun x =>
      let r := (1e4 * x) / (powerRZ 2 z - x) in
      1 / (1.12764514e-3 + 2.34282709e-4 * ln r + 8.77303013e-8 * (ln r) ^ 3) - 273.15)
      (numpy_array raw_signal))).
Proof.
  intros Hd; apply in_list_In in Hd.
  rewrite raw_to_phy_temp_celsius, raw_to_phy_temp_kelvin, raw_to_phy_temp_ohm by exact Hd.
  cbn [derive]; rewrite !map_map; reflexivity.
Qed.

Lemma raw_to_phy_temp_celsius_chain_witness :
  raw_to_phy "TEMP" "ddme_openbanplux" [2048%Z] (PyInt 12) "C"
  = Return (Some (map (fun x =>
      let r := (1e4 * x) / (powerRZ 2 12 - x) in
      1 / (1.12764514e-3 + 2.34282709e-4 * ln r + 8.77303013e-8 * (ln r) ^ 3) - 273.15)
      (numpy_array [2048%Z]))).
Proof. apply raw_to_phy_temp_celsius_chain; cbn; tauto. Defined.

(** For EMG and ECG the mid-scale code [2^(r-1)] maps to exactly 0 mV on
    every supported device (the offset is half the supply). *)
Theorem raw_to_phy_mv_mid_scale_zero (sensor device : string) (z : Z) (y : R) :
  sensor = "EMG" \/ sensor = "ECG" -> (1 <= z)%Z ->
  raw_to_phy sensor device [(2 ^ (z - 1))%Z] (PyInt z) "mV" = Return (Some [y]) ->
  y = 0.
Proof.
  intros Hs Hz.
  assert (Hp : powerRZ 2 z = 2 * IZR (2 ^ (z - 1))).
  { rewrite powerRZ_two_IZR by lia.
    replace z with (Z.succ (z - 1)) at 1 by lia.
    rewrite Z.pow_succ_r, mult_IZR by lia; reflexivity. }
  assert (Hpos : 0 < IZR (2 ^ (z - 1))) by (apply IZR_lt, Z.pow_pos_nonneg; lia).
  destruct Hs as [-> | ->]; step_phy;
    repeat match goal with |- context [if ?b then _ else _] => destruct b end;
    intros H; inversion H; subst; rewrite Hp; clear H Hp; revert Hpos;
    generalize (IZR (2 ^ (z - 1))); intros q Hq;
    replace (q * 3.0 / (2 * q)) with (3.0 / 2) by (field; lra); unfold Rdiv; lra.
Qed.

Lemma raw_to_phy_mv_mid_scale_zero_witness :
  raw_to_phy "ECG" "bitalino" [512%Z] (PyInt 10) "mV"
  = Return (Some [(IZR 512 * 3.0 / powerRZ 2 10 - 3.0 * 0.5) / 1.1]) /\
  (IZR 512 * 3.0 / powerRZ 2 10 - 3.0 * 0.5) / 1.1 = 0.
Proof.
  split; [reflexivity |].
  apply (raw_to_phy_mv_mid_scale_zero "ECG" "bitalino" 10); [right; reflexivity | lia |].
  reflexivity.
Defined.

(** ** [generate_time] *)

Lemma generate_time_closed (signal : list R) (sample_rate : Z) (m : nat) :
  sample_rate <> 0%Z -> length signal = S m -> (1 <= m)%nat ->
  generate_time signal sample_rate
  = Return (map (fun i => INR i * ((INR (S m) / IZR sample_rate) / INR m)) (seq 0 (S m))).
Proof.
  intros Hsr Hlen Hm; unfold generate_time.
  rewrite (proj2 (Z.eqb_neq sample_rate 0)) by exact Hsr.
  rewrite Hlen, linspace_closed by exact Hm; reflexivity.
Qed.

(** For [n >= 2] samples and any non-zero rate (negative ones included),
    the time axis has [n] points and its [i]-th point is
    [i * (n / sample_rate) / (n - 1)]. *)
Theorem generate_time_nth (signal : list R) (sample_rate : Z) :
  sample_rate <> 0%Z -> (2 <= length signal)%nat ->
  exists ts,
    generate_time signal sample_rate = Return ts /\
    length ts = length signal /\
    forall i, (i < length signal)%nat ->
      nth i ts 0 = INR i * ((INR (length signal) / IZR sample_rate)
                            / INR (length signal - 1)).
Proof.
  intros Hsr Hn.
  destruct (length signal) as [|m] eqn:Hlen; [lia |].
  replace (S m - 1)%nat with m by lia.
  eexists; split; [apply (generate_time_closed signal sample_rate m Hsr Hlen); lia |].
  split; [rewrite length_map, length_seq; reflexivity |].
  intros i Hi; rewrite nth_map_seq by exact Hi; reflexivity.
Qed.

Lemma generate_time_nth_witness :
  exists ts,
    generate_time [1; 2; 3; 4] (-2)%Z = Return ts /\
    length ts = length [1; 2; 3; 4] /\
    forall i, (i < length [1; 2; 3; 4])%nat ->
      nth i ts 0 = INR i * ((INR (length [1; 2; 3; 4]) / IZR (-2))
                            / INR (length [1; 2; 3; 4] - 1)).
Proof. apply generate_time_nth; [discriminate | cbn; lia]. Defined.

(** For [n >= 2] samples and a positive rate, every timestamp lies in the
    closed interval [[0, n / sample_rate]]. *)
Theorem generate_time_bounds (signal : list R) (sample_rate : Z) :
  (0 < sample_rate)%Z -> (2 <= length signal)%nat ->
  exists ts,
    generate_time signal sample_rate = Return ts /\
    Forall (fun t => 0 <= t <= INR (length signal) / IZR sample_rate) ts.
Proof.
  intros Hsr Hn.
  destruct (length signal) as [|m] eqn:Hlen; [lia |].
  eexists; split; [apply (generate_time_closed signal sample_rate m); lia |].
  assert (Hm : 0 < INR m) by (apply lt_0_INR; lia).
  assert (He : 0 < INR (S m) / IZR sample_rate).
  { unfold Rdiv; apply Rmult_lt_0_compat;
      [apply lt_0_INR; lia | apply Rinv_0_lt_compat, IZR_lt; exact Hsr]. }
  revert He; generalize (INR (S m) / IZR sample_rate); intros e He.
  apply Forall_forall; intros t Ht.
  apply in_map_iff in Ht as [i [<- Hi]]; apply in_seq in Hi.
  assert (Hi0 : 0 <= INR i) by apply pos_INR.
  assert (Him : INR i <= INR m) by (apply le_INR; lia).
  replace (INR i * (e / INR m)) with (e * (INR i / INR m)) by (field; lra).
  assert (Hq0 : 0 <= INR i / INR m)
    by (unfold Rdiv; apply Rmult_le_pos; [lra | apply Rlt_le, Rinv_0_lt_compat; lra]).
  assert (Hq1 : INR i / INR m <= 1)
    by (apply (Rmult_le_reg_r (INR m)); [lra | unfold Rdiv; rewrite Rmult_assoc,
        Rinv_l, Rmult_1_r, Rmult_1_l by lra; exact Him]).
  split; [apply Rmult_le_pos; lra |].
  rewrite <- (Rmult_1_r e) at 2; apply Rmult_le_compat_l; lra.
Qed.

Lemma generate_time_bounds_witness :
  exists ts,
    generate_time [0; 0; 0; 0; 0] 100%Z = Return ts /\
    Forall (fun t => 0 <= t <= INR (length [0; 0; 0; 0; 0]) / IZR 100) ts.
Proof. apply generate_time_bounds; [lia | cbn; lia]. Defined.
